(** * InstanceWrapper (python/example_code/ec2/instance.py)

    A shallow embedding of the EC2 [InstanceWrapper] class.  The boto3 client
    is external: it is modelled as an arbitrary (deterministic) provider that
    answers each request it receives, possibly depending on the requests it
    has already received.  Python values crossing the client boundary (the
    request dictionaries and the reply dictionaries) are JSON-like values,
    and every subscript [d["k"]] / [l[0]] of the source is a checked lookup
    raising [KeyError], [IndexError] or [TypeError] as Python does.  A method
    runs in a small state-and-exception monad whose state holds the tracked
    [self.instance], the trace of requests sent to the client, the lines
    printed to stdout and the log records. *)

From Stdlib Require Import String List ZArith Bool Lia.
From Stdlib Require Import DecimalString.
Import ListNotations.
Open Scope string_scope.
Set Warnings "-register-all".

(** ** Python values at the client boundary *)

Inductive json : Type :=
| JNull : json
| JBool : bool -> json
| JInt : Z -> json
| JStr : string -> json
| JList : list json -> json
| JObj : list (string * json) -> json.

(** Python exceptions that can reach the wrapper. *)
Inductive exn : Type :=
| ClientError (code message : string)   (* botocore.exceptions.ClientError *)
| WaiterError (reason : string)         (* botocore.exceptions.WaiterError *)
| KeyError (key : json)
| IndexError
| TypeError.

Definition is_client_error (e : exn) : bool :=
  match e with ClientError _ _ => true | _ => false end.

(** [d[k]] for a string key. *)
Fixpoint assoc_lookup (k : string) (kvs : list (string * json)) : option json :=
  match kvs with
  | [] => None
  | (k', v) :: rest => if String.eqb k k' then Some v else assoc_lookup k rest
  end.

Definition getitem (v : json) (k : string) : exn + json :=
  match v with
  | JObj kvs =>
      match assoc_lookup k kvs with
      | Some x => inr x
      | None => inl (KeyError (JStr k))
      end
  | _ => inl TypeError
  end.

(** [l[i]] for a non-negative integer index. *)
Definition getindex (v : json) (i : nat) : exn + json :=
  match v with
  | JList l =>
      match nth_error l i with
      | Some x => inr x
      | None => inl IndexError
      end
  | JObj _ => inl (KeyError (JInt (Z.of_nat i)))
  | JStr s =>
      match String.get i s with
      | Some c => inr (JStr (String c EmptyString))
      | None => inl IndexError
      end
  | _ => inl TypeError
  end.

(** [for x in v]: the items iterated over. *)
Definition py_iter (v : json) : exn + list json :=
  match v with
  | JList l => inr l
  | JObj kvs => inr (map (fun kv => JStr (fst kv)) kvs)
  | JStr s => inr (map (fun c => JStr (String c EmptyString)) (list_ascii_of_string s))
  | _ => inl TypeError
  end.

(** [str(v)], as used by the f-strings of [display].  Containers are
    rendered as Python's [repr] does, without escaping inside quotes. *)
Fixpoint py_repr (v : json) : string :=
  match v with
  | JNull => "None"
  | JBool true => "True"
  | JBool false => "False"
  | JInt z => NilZero.string_of_int (Z.to_int z)
  | JStr s => "'" ++ s ++ "'"
  | JList l => "[" ++ String.concat ", " (map py_repr l) ++ "]"
  | JObj kvs =>
      "{" ++ String.concat ", "
               (map (fun kv => "'" ++ fst kv ++ "': " ++ py_repr (snd kv)) kvs)
      ++ "}"
  end.

Definition py_str (v : json) : string :=
  match v with
  | JStr s => s
  | _ => py_repr v
  end.

(** [c * n] for a one-character string [c] and an int [n]
    (empty when [n <= 0]). *)
Fixpoint repeat_str (s : string) (n : nat) : string :=
  match n with
  | O => ""
  | S n' => s ++ repeat_str s n'
  end.

(** The one-character string ["\t"]. *)
Definition tab : string := String (Ascii.ascii_of_nat 9) EmptyString.

Definition str_mul (s : string) (n : Z) : string := repeat_str s (Z.to_nat n).

(** ** Requests, log records and the wrapper's state *)

(** A request sent through [self.ec2_client]: either an API call
    [ec2_client.<op>(kwargs)] or a waiter
    [ec2_client.get_waiter(<name>).wait(kwargs)], the keyword arguments
    listed in the order the source passes them. *)
Inductive request : Type :=
| Call (op : string) (kwargs : list (string * json))
| Wait (waiter : string) (kwargs : list (string * json)).

(** [logging.error] writes to the root logger, [logger.*] to the module's. *)
Inductive logger_name : Type := RootLogger | ModuleLogger.
Inductive level : Type := INFO | ERROR.

Record log_record : Type := mk_log {
  log_logger : logger_name;
  log_level : level;
  log_msg : string;
  log_args : list json
}.

Record st : Type := mk_st {
  instance : option json;        (* self.instance *)
  trace : list request;          (* requests sent to self.ec2_client *)
  stdout : list string;          (* lines printed *)
  logs : list log_record         (* records logged *)
}.

(** The provider: its answer to a request, given the requests it has
    received before.  A waiter answers [inr JNull] when the awaited state is
    reached. *)
Definition provider : Type := list request -> request -> exn + json.

(** ** The state-and-exception monad *)

Definition M (A : Type) : Type := st -> (exn + A) * st.

Definition ret {A} (a : A) : M A := fun s => (inr a, s).
Definition raise {A} (e : exn) : M A := fun s => (inl e, s).
Definition bind {A B} (m : M A) (f : A -> M B) : M B :=
  fun s => match m s with
           | (inl e, s') => (inl e, s')
           | (inr a, s') => f a s'
           end.

Notation "x <- m ;; k" := (bind m (fun x => k))
  (at level 61, m at next level, right associativity).
Notation "m ;;; k" := (bind m (fun _ => k))
  (at level 61, right associativity).

(** A checked Python operation. *)
Definition lift {A} (r : exn + A) : M A := fun s => (r, s).

Definition get_instance : M (option json) := fun s => (inr (instance s), s).
Definition set_instance (i : option json) : M unit :=
  fun s => (inr tt, mk_st i (trace s) (stdout s) (logs s)).

(** [self.instance[k]]: subscripting [None] is a [TypeError]. *)
Definition self_instance_sub (k : string) : M json :=
  i <- get_instance ;;
  match i with
  | Some v => lift (getitem v k)
  | None => raise TypeError
  end.

Definition print (line : string) : M unit :=
  fun s => (inr tt, mk_st (instance s) (trace s) (stdout s ++ [line])%list (logs s)).

Definition log (r : log_record) : M unit :=
  fun s => (inr tt, mk_st (instance s) (trace s) (stdout s) (logs s ++ [r])%list).

(** [try: body except ClientError as err: handler err]; other exceptions
    propagate. *)
Definition try_client {A} (body : M A) (handler : string -> string -> M A) : M A :=
  fun s => match body s with
           | (inl (ClientError c m), s') => handler c m s'
           | r => r
           end.

(** [handler; raise]: the except blocks all log and re-raise [err]. *)
Definition log_and_reraise {A} (lg : logger_name) (msg : string) (args : list json)
  (c m : string) : M A :=
  log (mk_log lg ERROR msg (args ++ [JStr c; JStr m])%list) ;;; raise (ClientError c m).

Section Wrapper.

Variable client : provider.

(** Sending a request records it and returns the provider's answer. *)
Definition send (r : request) : M json :=
  fun s => (client (trace s) r, mk_st (instance s) (trace s ++ [r])%list (stdout s) (logs s)).

Definition instance_ids (id : json) : list (string * json) :=
  [("InstanceIds", JList [id])].

(** *** [create] (lines 31-74) *)

Definition create_params (image instance_type key_pair : string)
  (security_groups : option (list string)) : list (string * json) :=
  ([("ImageId", JStr image); ("InstanceType", JStr instance_type);
   ("KeyName", JStr key_pair)]
  ++ match security_groups with
     | Some sg => [("SecurityGroupIds", JList (map JStr sg))]
     | None => []
     end)%list.

Definition run_kwargs image instance_type key_pair security_groups :=
  (create_params image instance_type key_pair security_groups
   ++ [("MinCount", JInt 1); ("MaxCount", JInt 1)])%list.

Definition create (image instance_type key_pair : string)
  (security_groups : option (list string)) : M json :=
  try_client
    (response <- send (Call "run_instances"
                         (run_kwargs image instance_type key_pair security_groups)) ;;
     insts <- lift (getitem response "Instances") ;;
     inst <- lift (getindex insts 0) ;;
     set_instance (Some inst) ;;;
     id <- self_instance_sub "InstanceId" ;;
     send (Wait "instance_running" (instance_ids id)) ;;;
     self_instance_sub "InstanceId")
    (log_and_reraise RootLogger
       "Couldn't create instance with image %s, instance type %s, and key %s. Here's why: %s: %s"
       [JStr image; JStr instance_type; JStr key_pair]).

(** *** [display] (lines 79-106) *)

Definition print_field (ind label : string) (v : M json) : M unit :=
  x <- v ;; print (ind ++ label ++ py_str x).

Definition display (indent : Z) : M unit :=
  i <- get_instance ;;
  match i with
  | None => log (mk_log ModuleLogger INFO "No instance to display." [])
  | Some _ =>
    try_client
      (id <- self_instance_sub "InstanceId" ;;
       response <- send (Call "describe_instances" (instance_ids id)) ;;
       rs <- lift (getitem response "Reservations") ;;
       r0 <- lift (getindex rs 0) ;;
       is <- lift (getitem r0 "Instances") ;;
       inst <- lift (getindex is 0) ;;
       let ind := str_mul tab indent in
       print_field ind "ID: " (lift (getitem inst "InstanceId")) ;;;
       print_field ind "Image ID: " (lift (getitem inst "ImageId")) ;;;
       print_field ind "Instance type: " (lift (getitem inst "InstanceType")) ;;;
       print_field ind "Key name: " (lift (getitem inst "KeyName")) ;;;
       print_field ind "VPC ID: " (lift (getitem inst "VpcId")) ;;;
       print_field ind "Public IP: " (lift (getitem inst "PublicIpAddress")) ;;;
       print_field ind "State: "
         (stt <- lift (getitem inst "State") ;; lift (getitem stt "Name")))
      (log_and_reraise ModuleLogger "Couldn't display your instance. Here's why: %s: %s" [])
  end.

(** *** [terminate] (lines 111-131) *)

Definition terminate : M unit :=
  i <- get_instance ;;
  match i with
  | None => log (mk_log ModuleLogger INFO "No instance to terminate." [])
  | Some _ =>
    instance_id <- self_instance_sub "InstanceId" ;;
    try_client
      (send (Call "terminate_instances" (instance_ids instance_id)) ;;;
       send (Wait "instance_terminated" (instance_ids instance_id)) ;;;
       set_instance None)
      (log_and_reraise RootLogger "Couldn't terminate instance %s. Here's why: %s: %s"
         [instance_id])
  end.

(** *** [start] and [stop] (lines 136-185); [None] is Python's [None]. *)

Definition start_or_stop (what op waiter : string) : M (option json) :=
  i <- get_instance ;;
  match i with
  | None => log (mk_log ModuleLogger INFO ("No instance to " ++ what ++ ".") []) ;;;
            ret None
  | Some _ =>
    try_client
      (id <- self_instance_sub "InstanceId" ;;
       response <- send (Call op (instance_ids id)) ;;
       id' <- self_instance_sub "InstanceId" ;;
       send (Wait waiter (instance_ids id')) ;;;
       ret (Some response))
      (fun c m =>
         id <- self_instance_sub "InstanceId" ;;
         log_and_reraise ModuleLogger
           ("Couldn't " ++ what ++ " instance %s. Here's why: %s: %s") [id] c m)
  end.

Definition start : M (option json) :=
  start_or_stop "start" "start_instances" "instance_running".

Definition stop : M (option json) :=
  start_or_stop "stop" "stop_instances" "instance_stopped".

(** *** [get_images] (lines 190-206) *)

Definition get_images (image_ids : list string) : M json :=
  try_client
    (response <- send (Call "describe_images" [("ImageIds", JList (map JStr image_ids))]) ;;
     lift (getitem response "Images"))
    (log_and_reraise ModuleLogger "Couldn't get images. Here's why: %s: %s" []).

(** *** [get_instance_types] (lines 211-239) *)

Definition instance_type_filters (architecture : string) : json :=
  JList [JObj [("Name", JStr "processor-info.supported-architecture");
               ("Values", JList [JStr architecture])];
         JObj [("Name", JStr "instance-type");
               ("Values", JList [JStr "*.micro"; JStr "*.small"])]].

(** [[f(x) for x in xs]] *)
Fixpoint map_m {A B} (f : A -> M B) (xs : list A) : M (list B) :=
  match xs with
  | [] => ret []
  | x :: xs' => y <- f x ;; ys <- map_m f xs' ;; ret (y :: ys)
  end.

Definition get_instance_types (architecture : string) : M (list json) :=
  try_client
    (response <- send (Call "describe_instance_types"
                         [("Filters", instance_type_filters architecture)]) ;;
     its <- lift (getitem response "InstanceTypes") ;;
     items <- lift (py_iter its) ;;
     map_m (fun it => lift (getitem it "InstanceType")) items)
    (log_and_reraise ModuleLogger "Couldn't get instance types. Here's why: %s: %s" []).

End Wrapper.

(** ** The EC2 filter contract

    [describe_instance_types] is answered by EC2, not by this code.  EC2
    documents that a filter value ["*.micro"] matches the type names ending
    in [".micro"], and that the [processor-info.supported-architecture]
    filter keeps the types whose [ProcessorInfo.SupportedArchitectures]
    lists the value.  These definitions state that contract so that a
    result of [get_instance_types] can be related to it. *)

Definition ends_with (suffix t : string) : bool :=
  (String.length suffix <=? String.length t)%nat
  && String.eqb (substring (String.length t - String.length suffix)
                           (String.length suffix) t) suffix.

Definition micro_or_small (t : string) : bool :=
  ends_with ".micro" t || ends_with ".small" t.

Definition supports_architecture (architecture : string) (it : json) : Prop :=
  exists pinfo archs,
    getitem it "ProcessorInfo" = inr pinfo /\
    getitem pinfo "SupportedArchitectures" = inr (JList archs) /\
    In (JStr architecture) archs.

Definition honours_filters (architecture : string) (reply : json) : Prop :=
  forall its items,
    getitem reply "InstanceTypes" = inr its -> py_iter its = inr items ->
    Forall (fun it => exists t, getitem it "InstanceType" = inr (JStr t)
                                /\ micro_or_small t = true
                                /\ supports_architecture architecture it) items.

(** ** Concrete providers and states *)

Definition empty_st : st := mk_st None [] [] [].

Definition instance_record (id : string) : json :=
  JObj [("InstanceId", JStr id)].

Definition tracked_st : st := mk_st (Some (instance_record "i-0abc")) [] [] [].

Definition described_instance : json :=
  JObj [("InstanceId", JStr "i-0abc"); ("ImageId", JStr "ami-123");
        ("InstanceType", JStr "t2.micro"); ("KeyName", JStr "demo-key");
        ("VpcId", JStr "vpc-1"); ("PublicIpAddress", JStr "3.4.5.6");
        ("State", JObj [("Name", JStr "running")])].

(** [describe_instances] as EC2 answers it for a stopped instance: the
    record has no [PublicIpAddress]. *)
Definition stopped_instance : json :=
  JObj [("InstanceId", JStr "i-0abc"); ("ImageId", JStr "ami-123");
        ("InstanceType", JStr "t2.micro"); ("KeyName", JStr "demo-key");
        ("VpcId", JStr "vpc-1"); ("State", JObj [("Name", JStr "stopped")])].

Definition describe_reply (inst : json) : json :=
  JObj [("Reservations", JList [JObj [("Instances", JList [inst])]])].

Definition t3_types : json :=
  JObj [("InstanceTypes",
         JList [JObj [("InstanceType", JStr "t3.micro");
                      ("ProcessorInfo",
                        JObj [("SupportedArchitectures", JList [JStr "x86_64"])])]])].

(** A provider on which every request succeeds. *)
Definition ok_client (new_id : string) (described : json) : provider :=
  fun _ r =>
    match r with
    | Wait _ _ => inr JNull
    | Call op _ =>
        if String.eqb op "run_instances" then
          inr (JObj [("Instances", JList [instance_record new_id])])
        else if String.eqb op "describe_instances" then inr (describe_reply described)
        else if String.eqb op "describe_images" then inr (JObj [("Images", JList [])])
        else if String.eqb op "describe_instance_types" then inr t3_types
        else inr (JObj [("ResponseMetadata", JObj [])])
    end.

(** The same provider, with every waiter failing with [e]. *)
Definition waiter_fails (e : exn) (c : provider) : provider :=
  fun h r => match r with Wait _ _ => inl e | Call _ _ => c h r end.

(** The same provider, with one operation answered by [answer]. *)
Definition answers (op : string) (answer : exn + json) (c : provider) : provider :=
  fun h r => match r with
             | Call op' _ => if String.eqb op op' then answer else c h r
             | Wait _ _ => c h r
             end.

Example create_ok :
  create (ok_client "i-0abc" described_instance) "ami-123" "t2.micro" "demo-key" None empty_st
  = (inr (JStr "i-0abc"),
     mk_st (Some (instance_record "i-0abc"))
       [Call "run_instances" (run_kwargs "ami-123" "t2.micro" "demo-key" None);
        Wait "instance_running" (instance_ids (JStr "i-0abc"))] [] []).
Proof. reflexivity. Qed.

Example display_ok :
  stdout (snd (display (ok_client "i-0abc" described_instance) 1 tracked_st))
  = [tab ++ "ID: i-0abc"; tab ++ "Image ID: ami-123"; tab ++ "Instance type: t2.micro";
     tab ++ "Key name: demo-key"; tab ++ "VPC ID: vpc-1"; tab ++ "Public IP: 3.4.5.6";
     tab ++ "State: running"].
Proof. reflexivity. Qed.

Example display_stopped :
  display (ok_client "i-0abc" stopped_instance) 2 tracked_st
  = (inl (KeyError (JStr "PublicIpAddress")),
     mk_st (instance tracked_st)
       [Call "describe_instances" (instance_ids (JStr "i-0abc"))]
       [tab ++ tab ++ "ID: i-0abc"; tab ++ tab ++ "Image ID: ami-123";
        tab ++ tab ++ "Instance type: t2.micro"; tab ++ tab ++ "Key name: demo-key";
        tab ++ tab ++ "VPC ID: vpc-1"] []).
Proof. reflexivity. Qed.

Example py_repr_int : py_str (JList [JInt (-42); JStr "a"; JNull]) = "[-42, 'a', None]".
Proof. reflexivity. Qed.

Example micro_or_small_ex :
  map micro_or_small ["t2.micro"; "t3.small"; "m5.large"; "micro"; ".small"]
  = [true; true; false; false; true].
Proof. reflexivity. Qed.

(** ** Frame lemmas: which computations leave [self.instance] alone *)

Definition keeps_instance {A} (m : M A) : Prop :=
  forall s, instance (snd (m s)) = instance s.

Create HintDb frame.

Lemma keeps_ret {A} (a : A) : keeps_instance (ret a).
Proof. intro s; reflexivity. Qed.

Lemma keeps_raise {A} (e : exn) : keeps_instance (@raise A e).
Proof. intro s; reflexivity. Qed.

Lemma keeps_lift {A} (r : exn + A) : keeps_instance (lift r).
Proof. intro s; reflexivity. Qed.

Lemma keeps_get_instance : keeps_instance get_instance.
Proof. intro s; reflexivity. Qed.

Lemma keeps_print l : keeps_instance (print l).
Proof. intro s; reflexivity. Qed.

Lemma keeps_log r : keeps_instance (log r).
Proof. intro s; reflexivity. Qed.

Lemma keeps_send c r : keeps_instance (send c r).
Proof. intro s; reflexivity. Qed.

Lemma keeps_bind {A B} (m : M A) (f : A -> M B) :
  keeps_instance m -> (forall a, keeps_instance (f a)) -> keeps_instance (bind m f).
Proof.
  intros Hm Hf s. unfold bind. specialize (Hm s).
  destruct (m s) as [[e|a] s']; simpl in *; [assumption|].
  rewrite Hf. assumption.
Qed.

Lemma keeps_try {A} (body : M A) (h : string -> string -> M A) :
  keeps_instance body -> (forall c m, keeps_instance (h c m)) ->
  keeps_instance (try_client body h).
Proof.
  intros Hb Hh s. unfold try_client. specialize (Hb s).
  destruct (body s) as [[[c m| | | |]|a] s']; simpl in *; try assumption.
  rewrite Hh. assumption.
Qed.

Lemma keeps_map_m {A B} (f : A -> M B) xs :
  (forall x, keeps_instance (f x)) -> keeps_instance (map_m f xs).
Proof.
  intro Hf. induction xs as [|x xs IH]; simpl.
  - apply keeps_ret.
  - apply keeps_bind; [apply Hf|]. intro y.
    apply keeps_bind; [apply IH|]. intro; apply keeps_ret.
Qed.

#[export] Hint Resolve keeps_ret keeps_raise keeps_lift keeps_get_instance keeps_print
  keeps_log keeps_send : frame.

Ltac frame_step :=
  intros;
  first
    [ progress eauto with frame
    | apply keeps_map_m
    | apply keeps_bind
    | apply keeps_try
    | match goal with
      | |- keeps_instance (match ?x with _ => _ end) => destruct x
      | |- keeps_instance (let _ := _ in _) => cbv zeta
      | |- keeps_instance ?m => progress unfold m
      end ].

Ltac frame := repeat frame_step.

Lemma self_instance_sub_keeps k : keeps_instance (self_instance_sub k).
Proof. unfold self_instance_sub. frame. Qed.

Lemma log_and_reraise_keeps {A} lg msg args c m : keeps_instance (@log_and_reraise A lg msg args c m).
Proof. unfold log_and_reraise. frame. Qed.

Lemma print_field_keeps ind label v : keeps_instance v -> keeps_instance (print_field ind label v).
Proof. intro Hv. unfold print_field. frame. Qed.

#[export] Hint Resolve self_instance_sub_keeps log_and_reraise_keeps print_field_keeps : frame.

Lemma display_keeps client indent : keeps_instance (display client indent).
Proof. unfold display. frame. Qed.

Lemma start_or_stop_keeps client what op waiter :
  keeps_instance (start_or_stop client what op waiter).
Proof. unfold start_or_stop. frame. Qed.

Lemma get_images_keeps client ids : keeps_instance (get_images client ids).
Proof. unfold get_images. frame. Qed.

Lemma get_instance_types_keeps client arch : keeps_instance (get_instance_types client arch).
Proof. unfold get_instance_types. frame. Qed.

(** ** Case analysis of [terminate] and [create] *)

Ltac split_matches :=
  repeat match goal with
         | |- context [match ?x with _ => _ end] =>
             lazymatch x with
             | context [match _ with _ => _ end] => fail
             | _ => destruct x eqn:?
             end
         end.

Lemma terminate_cases client s :
  (fst (terminate client s) = inr tt /\ instance (snd (terminate client s)) = None) \/
  (exists e, fst (terminate client s) = inl e /\
             instance (snd (terminate client s)) = instance s).
Proof.
  destruct s as [i tr out lg].
  unfold terminate, try_client, log_and_reraise, self_instance_sub, send, set_instance,
    get_instance, log, lift, raise, bind, ret; simpl.
  destruct i as [inst|]; simpl; [|left; auto].
  split_matches; simpl in *; subst; eauto.
Qed.

Lemma create_cases client img ty kp sg s :
  instance (snd (create client img ty kp sg s)) = instance s \/
  exists inst, instance (snd (create client img ty kp sg s)) = Some inst.
Proof.
  destruct s as [i tr out lg].
  unfold create, try_client, log_and_reraise, self_instance_sub, send, set_instance,
    get_instance, log, lift, raise, bind, ret; simpl.
  split_matches; simpl in *; subst; eauto.
Qed.

(** [s] with one more log record. *)
Definition with_log (s : st) (r : log_record) : st :=
  mk_st (instance s) (trace s) (stdout s) (logs s ++ [r])%list.

(** ** Claims *)

(** C3: [self.instance] is set only by [create] and cleared only by a
    [terminate] that succeeds: [display], [get_images],
    [get_instance_types], [start] and [stop] leave it unchanged in every
    outcome; [terminate] changes it only when it returns normally, and then
    to [None]; [create] changes it only to some instance record; and a
    [terminate] that returns normally after a successful [create] leaves the
    reference unset. *)
Theorem instance_reference_frame :
  forall (client : provider) (s : st),
    (forall indent, instance (snd (display client indent s)) = instance s) /\
    (forall ids, instance (snd (get_images client ids s)) = instance s) /\
    (forall arch, instance (snd (get_instance_types client arch s)) = instance s) /\
    instance (snd (start client s)) = instance s /\
    instance (snd (stop client s)) = instance s /\
    (instance (snd (terminate client s)) <> instance s ->
       fst (terminate client s) = inr tt /\ instance (snd (terminate client s)) = None) /\
    (forall img ty kp sg,
       instance (snd (create client img ty kp sg s)) <> instance s ->
       exists inst, instance (snd (create client img ty kp sg s)) = Some inst) /\
    (forall img ty kp sg id s1,
       create client img ty kp sg s = (inr id, s1) ->
       fst (terminate client s1) = inr tt ->
       instance (snd (terminate client s1)) = None).
Proof.
  intros client s.
  split; [intro; apply display_keeps|].
  split; [intro; apply get_images_keeps|].
  split; [intro; apply get_instance_types_keeps|].
  split; [apply start_or_stop_keeps|].
  split; [apply start_or_stop_keeps|].
  split.
  { intro Hne. destruct (terminate_cases client s) as [H|(e & _ & H)]; [exact H|].
    contradiction. }
  split.
  { intros img ty kp sg Hne. destruct (create_cases client img ty kp sg s) as [H|H];
      [contradiction|exact H]. }
  intros img ty kp sg id s1 _ Hok.
  destruct (terminate_cases client s1) as [[_ H]|(e & He & _)]; [exact H|].
  rewrite Hok in He. discriminate.
Qed.

Lemma instance_reference_frame_witness :
  create (ok_client "i-0abc" described_instance) "ami-123" "t2.micro" "demo-key" None
    empty_st
  = (inr (JStr "i-0abc"),
     snd (create (ok_client "i-0abc" described_instance) "ami-123" "t2.micro" "demo-key"
            None empty_st)) /\
  fst (terminate (ok_client "i-0abc" described_instance)
         (snd (create (ok_client "i-0abc" described_instance) "ami-123" "t2.micro"
                 "demo-key" None empty_st))) = inr tt /\
  instance (snd (terminate (ok_client "i-0abc" described_instance)
                  (snd (create (ok_client "i-0abc" described_instance) "ami-123"
                          "t2.micro" "demo-key" None empty_st)))) = None.
Proof.
  destruct (instance_reference_frame (ok_client "i-0abc" described_instance) empty_st)
    as (_ & _ & _ & _ & _ & _ & _ & H).
  split; [reflexivity|]. split; [reflexivity|].
  eapply H; reflexivity.
Defined.

(** C4: with no tracked instance, [start], [stop], [display] and
    [terminate] return normally ([None]), send no request to the provider
    and change nothing but the log, to which they add one INFO record. *)
Theorem untracked_calls_are_noops :
  forall (client : provider) (s : st) (indent : Z),
    instance s = None ->
    start client s
      = (inr None, with_log s (mk_log ModuleLogger INFO "No instance to start." [])) /\
    stop client s
      = (inr None, with_log s (mk_log ModuleLogger INFO "No instance to stop." [])) /\
    display client indent s
      = (inr tt, with_log s (mk_log ModuleLogger INFO "No instance to display." [])) /\
    terminate client s
      = (inr tt, with_log s (mk_log ModuleLogger INFO "No instance to terminate." [])).
Proof.
  intros client [i tr out lg] indent H. simpl in H. subst i.
  repeat split; reflexivity.
Qed.

Lemma untracked_calls_are_noops_witness :
  instance empty_st = None /\
  start (ok_client "i-1" described_instance) empty_st
    = (inr None, with_log empty_st (mk_log ModuleLogger INFO "No instance to start." [])).
Proof.
  split; [reflexivity|].
  apply (untracked_calls_are_noops (ok_client "i-1" described_instance) empty_st 1).
  reflexivity.
Defined.

(** An exception raised out of a method is logged by it (one ERROR record)
    exactly when it is a [ClientError]; any other exception passes through
    the [except ClientError] clauses without a log record. *)
Definition logged_iff_client_error (e : exn) (s s' : st) : Prop :=
  (is_client_error e = true ->
     exists r, logs s' = (logs s ++ [r])%list /\ log_level r = ERROR) /\
  (is_client_error e = false -> logs s' = logs s).

(** A provider whose [instance_running] waiter fails after [run_instances]
    succeeded. *)
Definition running_wait_fails : provider :=
  waiter_fails (ClientError "RequestLimitExceeded" "Request limit exceeded.")
    (ok_client "i-0abc" described_instance).

(** C1 (counterexample): the wait fails with a [ClientError], [create]
    raises it, but [self.instance] was assigned before the wait and stays
    set to the new instance. *)
Lemma create_wait_failure_sets_reference :
  instance empty_st = None /\
  fst (create running_wait_fails "ami-123" "t2.micro" "demo-key" None empty_st)
    = inl (ClientError "RequestLimitExceeded" "Request limit exceeded.") /\
  instance (snd (create running_wait_fails "ami-123" "t2.micro" "demo-key" None empty_st))
    = Some (instance_record "i-0abc").
Proof. repeat split; reflexivity. Qed.

(** C1 (amended): when the [run_instances] request fails, [create]
    re-raises its error (logged when it is a [ClientError]) and leaves
    [self.instance] unchanged, so unset if it was unset; when the request
    succeeds and the [instance_running] wait then fails, [create] re-raises
    the wait's error but [self.instance] already holds the new instance
    record. *)
Theorem create_failure_reference :
  forall (client : provider) img ty kp sg (s : st),
    (forall e,
       client (trace s) (Call "run_instances" (run_kwargs img ty kp sg)) = inl e ->
       fst (create client img ty kp sg s) = inl e /\
       instance (snd (create client img ty kp sg s)) = instance s /\
       logged_iff_client_error e s (snd (create client img ty kp sg s))) /\
    (forall reply insts inst id e,
       client (trace s) (Call "run_instances" (run_kwargs img ty kp sg)) = inr reply ->
       getitem reply "Instances" = inr insts ->
       getindex insts 0 = inr inst ->
       getitem inst "InstanceId" = inr id ->
       client (trace s ++ [Call "run_instances" (run_kwargs img ty kp sg)])%list
         (Wait "instance_running" (instance_ids id)) = inl e ->
       fst (create client img ty kp sg s) = inl e /\
       instance (snd (create client img ty kp sg s)) = Some inst /\
       logged_iff_client_error e s (snd (create client img ty kp sg s))).
Proof.
  intros client img ty kp sg [i tr out lg].
  unfold logged_iff_client_error.
  split.
  - intros e He.
    unfold create, try_client, log_and_reraise, send, log, raise, bind; simpl in *.
    rewrite He.
    destruct e; simpl; repeat split; try discriminate; eauto.
  - intros reply insts inst id e Hr Hi H0 Hid Hw.
    unfold create, try_client, log_and_reraise, self_instance_sub, send, set_instance,
      get_instance, log, lift, raise, bind; simpl in *.
    rewrite Hr, Hi, H0; simpl. rewrite Hid; simpl. rewrite Hw.
    destruct e; simpl; repeat split; try discriminate; eauto.
Qed.

Lemma create_failure_reference_witness :
  fst (create running_wait_fails "ami-123" "t2.micro" "demo-key" None empty_st)
    = inl (ClientError "RequestLimitExceeded" "Request limit exceeded.") /\
  instance (snd (create running_wait_fails "ami-123" "t2.micro" "demo-key" None empty_st))
    = Some (instance_record "i-0abc").
Proof.
  destruct (create_failure_reference running_wait_fails "ami-123" "t2.micro" "demo-key"
              None empty_st) as [_ H].
  edestruct H as (H1 & H2 & _); try reflexivity.
  split; [exact H1 | exact H2].
Defined.

(** A provider whose waiters fail the way boto3's do: with a
    [WaiterError], which is not a [ClientError]. *)
Definition waiter_times_out : provider :=
  waiter_fails (WaiterError "Max attempts exceeded")
    (ok_client "i-0abc" described_instance).

(** Python's own lookups never raise a [ClientError]. *)
Lemma getitem_not_client v k e : getitem v k = inl e -> is_client_error e = false.
Proof.
  destruct v; simpl; try (intro H; inversion H; reflexivity).
  destruct (assoc_lookup k l); intro H; inversion H; reflexivity.
Qed.

(** C5 (counterexample): the [instance_terminated] wait fails; [terminate]
    re-raises the error and keeps [self.instance], but the error is not
    logged: the [except ClientError] clause does not catch it. *)
Lemma terminate_waiter_error_not_logged :
  terminate waiter_times_out tracked_st
  = (inl (WaiterError "Max attempts exceeded"),
     mk_st (instance tracked_st)
       [Call "terminate_instances" (instance_ids (JStr "i-0abc"));
        Wait "instance_terminated" (instance_ids (JStr "i-0abc"))]
       [] (logs tracked_st)).
Proof. reflexivity. Qed.

(** C5 (amended): when the [terminate_instances] request or the
    [instance_terminated] wait fails, [terminate] re-raises that error; on
    every failure of [terminate] [self.instance] is unchanged, and the error
    is logged exactly when it is a [ClientError]. *)
Theorem terminate_failure_reference :
  forall (client : provider) (s : st),
    (forall inst id e,
       instance s = Some inst ->
       getitem inst "InstanceId" = inr id ->
       (client (trace s) (Call "terminate_instances" (instance_ids id)) = inl e \/
        exists r,
          client (trace s) (Call "terminate_instances" (instance_ids id)) = inr r /\
          client (trace s ++ [Call "terminate_instances" (instance_ids id)])%list
            (Wait "instance_terminated" (instance_ids id)) = inl e) ->
       fst (terminate client s) = inl e) /\
    (forall e s',
       terminate client s = (inl e, s') ->
       instance s' = instance s /\ logged_iff_client_error e s s').
Proof.
  intros client [i tr out lg]. split.
  - intros inst id e Hi Hid Hfail. simpl in *. subst i.
    unfold terminate, try_client, log_and_reraise, self_instance_sub, send, set_instance,
      get_instance, log, lift, raise, bind; simpl. rewrite Hid.
    destruct Hfail as [He|(r & Hr & He)].
    + rewrite He. destruct e; reflexivity.
    + rewrite Hr, He. destruct e; reflexivity.
  - intros e s' H. unfold logged_iff_client_error.
    revert H.
    unfold terminate, try_client, log_and_reraise, self_instance_sub, send, set_instance,
      get_instance, log, lift, raise, bind, ret; simpl.
    split_matches; simpl in *; intro H; inversion H; subst; simpl;
      repeat split; try discriminate; eauto.
    match goal with
    | Hg : getitem _ _ = inl ?e |- is_client_error ?e = true -> _ =>
        rewrite (getitem_not_client _ _ _ Hg); discriminate
    end.
Qed.

Lemma terminate_failure_reference_witness :
  fst (terminate waiter_times_out tracked_st) = inl (WaiterError "Max attempts exceeded") /\
  instance (snd (terminate waiter_times_out tracked_st)) = instance tracked_st.
Proof.
  destruct (terminate_failure_reference waiter_times_out tracked_st) as [H1 H2].
  split.
  - eapply H1; [reflexivity | reflexivity |].
    right. eexists. split; reflexivity.
  - eapply H2. reflexivity.
Defined.

(** C2 (counterexample): [create] returns the [InstanceId] of the
    provider's reply as it is; nothing in the code makes it non-empty. *)
Lemma create_returns_provider_id :
  create (ok_client "" described_instance) "ami-123" "t2.micro" "demo-key" None empty_st
  = (inr (JStr ""),
     mk_st (Some (instance_record ""))
       [Call "run_instances" (run_kwargs "ami-123" "t2.micro" "demo-key" None);
        Wait "instance_running" (instance_ids (JStr ""))] [] []).
Proof. reflexivity. Qed.

(** C2 (amended): the [run_instances] request carries exactly the keys
    [ImageId], [InstanceType], [KeyName] (with the given values),
    [SecurityGroupIds] only when a list is supplied, and [MinCount = MaxCount
    = 1]; and whenever [create] returns normally, the request succeeded, the
    [instance_running] waiter for the new instance's id returned, exactly
    these two requests were sent, [self.instance] holds the first instance
    record of the reply, and the value returned is that record's
    [InstanceId] as the provider gave it. *)
Theorem create_success :
  forall (client : provider) img ty kp sg (s : st) id s',
    create client img ty kp sg s = (inr id, s') ->
    map fst (run_kwargs img ty kp sg)
      = (["ImageId"; "InstanceType"; "KeyName"]
         ++ match sg with Some _ => ["SecurityGroupIds"] | None => [] end
         ++ ["MinCount"; "MaxCount"])%list /\
    assoc_lookup "ImageId" (run_kwargs img ty kp sg) = Some (JStr img) /\
    assoc_lookup "InstanceType" (run_kwargs img ty kp sg) = Some (JStr ty) /\
    assoc_lookup "KeyName" (run_kwargs img ty kp sg) = Some (JStr kp) /\
    assoc_lookup "SecurityGroupIds" (run_kwargs img ty kp sg)
      = option_map (fun g => JList (map JStr g)) sg /\
    assoc_lookup "MinCount" (run_kwargs img ty kp sg) = Some (JInt 1) /\
    assoc_lookup "MaxCount" (run_kwargs img ty kp sg) = Some (JInt 1) /\
    exists reply insts inst w,
      client (trace s) (Call "run_instances" (run_kwargs img ty kp sg)) = inr reply /\
      getitem reply "Instances" = inr insts /\
      getindex insts 0 = inr inst /\
      getitem inst "InstanceId" = inr id /\
      client (trace s ++ [Call "run_instances" (run_kwargs img ty kp sg)])%list
        (Wait "instance_running" (instance_ids id)) = inr w /\
      trace s' = (trace s ++ [Call "run_instances" (run_kwargs img ty kp sg);
                              Wait "instance_running" (instance_ids id)])%list /\
      instance s' = Some inst.
Proof.
  intros client img ty kp sg [i tr out lg] id s' H.
  split; [destruct sg; reflexivity|].
  split; [reflexivity|]. split; [reflexivity|]. split; [reflexivity|].
  split; [destruct sg; reflexivity|].
  split; [destruct sg; reflexivity|]. split; [destruct sg; reflexivity|].
  revert H.
  unfold create, try_client, log_and_reraise, self_instance_sub, send, set_instance,
    get_instance, log, lift, raise, bind, ret; simpl.
  split_matches; simpl in *; intro H; inversion H; subst; clear H.
  do 4 eexists. repeat split; eauto.
  rewrite <- app_assoc. reflexivity.
Qed.

Lemma create_success_witness :
  create (ok_client "i-0abc" described_instance) "ami-123" "t2.micro" "demo-key"
    (Some ["sg-1"]) empty_st
  = (inr (JStr "i-0abc"),
     snd (create (ok_client "i-0abc" described_instance) "ami-123" "t2.micro" "demo-key"
            (Some ["sg-1"]) empty_st)) /\
  assoc_lookup "SecurityGroupIds" (run_kwargs "ami-123" "t2.micro" "demo-key" (Some ["sg-1"]))
    = Some (JList [JStr "sg-1"]).
Proof.
  split; [reflexivity|].
  edestruct (create_success (ok_client "i-0abc" described_instance) "ami-123" "t2.micro"
               "demo-key" (Some ["sg-1"]) empty_st) as (_ & _ & _ & _ & H & _);
    [reflexivity|].
  exact H.
Defined.

Lemma start_or_stop_returns client what op waiter s r s' inst :
  instance s = Some inst ->
  start_or_stop client what op waiter s = (inr r, s') ->
  exists id resp w,
    getitem inst "InstanceId" = inr id /\
    client (trace s) (Call op (instance_ids id)) = inr resp /\
    client (trace s ++ [Call op (instance_ids id)])%list (Wait waiter (instance_ids id))
      = inr w /\
    trace s' = (trace s ++ [Call op (instance_ids id); Wait waiter (instance_ids id)])%list /\
    r = Some resp.
Proof.
  destruct s as [i tr out lg]. simpl. intro Hi. subst i.
  unfold start_or_stop, try_client, log_and_reraise, self_instance_sub, send,
    get_instance, log, lift, raise, bind, ret; simpl.
  split_matches; simpl in *; intro H; inversion H; subst; clear H.
  do 3 eexists. repeat split; eauto.
  rewrite <- app_assoc. reflexivity.
Qed.

Lemma start_or_stop_runs client what op waiter s inst id resp w :
  instance s = Some inst ->
  getitem inst "InstanceId" = inr id ->
  client (trace s) (Call op (instance_ids id)) = inr resp ->
  client (trace s ++ [Call op (instance_ids id)])%list (Wait waiter (instance_ids id))
    = inr w ->
  fst (start_or_stop client what op waiter s) = inr (Some resp).
Proof.
  destruct s as [i tr out lg]. simpl. intros Hi Hid Hr Hw. subst i.
  cbv beta iota delta [start_or_stop try_client log_and_reraise self_instance_sub send
    get_instance log lift raise bind ret instance trace stdout logs fst snd].
  rewrite Hid, Hr, Hw. reflexivity.
Qed.

(** C6: with a tracked instance, [start] (resp. [stop]) returns normally
    exactly when the provider accepts the [start_instances]
    (resp. [stop_instances]) request for the instance's id and the
    [instance_running] (resp. [instance_stopped]) waiter for that id
    returns; it then has sent just these two requests and returns the raw
    response of the first.  With no tracked instance both return [None]. *)
Theorem start_stop_contract :
  forall (client : provider) (s : st),
    (instance s = None ->
       fst (start client s) = inr None /\ fst (stop client s) = inr None) /\
    (forall inst r s',
       instance s = Some inst -> start client s = (inr r, s') ->
       exists id resp w,
         getitem inst "InstanceId" = inr id /\
         client (trace s) (Call "start_instances" (instance_ids id)) = inr resp /\
         client (trace s ++ [Call "start_instances" (instance_ids id)])%list
           (Wait "instance_running" (instance_ids id)) = inr w /\
         trace s' = (trace s ++ [Call "start_instances" (instance_ids id);
                                 Wait "instance_running" (instance_ids id)])%list /\
         r = Some resp) /\
    (forall inst r s',
       instance s = Some inst -> stop client s = (inr r, s') ->
       exists id resp w,
         getitem inst "InstanceId" = inr id /\
         client (trace s) (Call "stop_instances" (instance_ids id)) = inr resp /\
         client (trace s ++ [Call "stop_instances" (instance_ids id)])%list
           (Wait "instance_stopped" (instance_ids id)) = inr w /\
         trace s' = (trace s ++ [Call "stop_instances" (instance_ids id);
                                 Wait "instance_stopped" (instance_ids id)])%list /\
         r = Some resp) /\
    (forall inst id resp w,
       instance s = Some inst -> getitem inst "InstanceId" = inr id ->
       client (trace s) (Call "start_instances" (instance_ids id)) = inr resp ->
       client (trace s ++ [Call "start_instances" (instance_ids id)])%list
         (Wait "instance_running" (instance_ids id)) = inr w ->
       fst (start client s) = inr (Some resp)) /\
    (forall inst id resp w,
       instance s = Some inst -> getitem inst "InstanceId" = inr id ->
       client (trace s) (Call "stop_instances" (instance_ids id)) = inr resp ->
       client (trace s ++ [Call "stop_instances" (instance_ids id)])%list
         (Wait "instance_stopped" (instance_ids id)) = inr w ->
       fst (stop client s) = inr (Some resp)).
Proof.
  intros client s. split.
  { destruct s as [i tr out lg]. simpl. intro H. subst i. split; reflexivity. }
  split; [intros; eapply start_or_stop_returns; eassumption|].
  split; [intros; eapply start_or_stop_returns; eassumption|].
  split; intros; eapply start_or_stop_runs; eassumption.
Qed.

Lemma start_stop_contract_witness :
  instance tracked_st = Some (instance_record "i-0abc") /\
  fst (start (ok_client "i-0abc" described_instance) tracked_st)
    = inr (Some (JObj [("ResponseMetadata", JObj [])])) /\
  fst (stop (ok_client "i-0abc" described_instance) tracked_st)
    = inr (Some (JObj [("ResponseMetadata", JObj [])])).
Proof.
  destruct (start_stop_contract (ok_client "i-0abc" described_instance) tracked_st)
    as (_ & _ & _ & Hstart & Hstop).
  split; [reflexivity|].
  split; [eapply Hstart | eapply Hstop]; reflexivity.
Defined.

(** [response["Reservations"][0]["Instances"][0]] evaluates to [rec]. *)
Definition first_reserved_instance (reply rec : json) : Prop :=
  exists rs r0 is,
    getitem reply "Reservations" = inr rs /\ getindex rs 0 = inr r0 /\
    getitem r0 "Instances" = inr is /\ getindex is 0 = inr rec.

Ltac run_display :=
  cbv beta iota zeta delta [display print_field try_client log_and_reraise
    self_instance_sub send get_instance print log lift raise bind ret
    instance trace stdout logs fst snd].




(** C10: the lookups of [display] sit outside the [except ClientError]
    branch's reach.  With a tracked instance, a [describe_instances] reply
    whose reservation list is empty makes [display] raise [IndexError]
    before printing anything, and a reply whose instance record lacks
    [PublicIpAddress] (as EC2 answers for a stopped instance) makes it raise
    [KeyError] after printing the first five fields; in both cases nothing
    is logged, so the error is not treated as a provider error. *)
Theorem display_unguarded_lookups :
  forall (client : provider) indent (s : st) inst id reply,
    instance s = Some inst ->
    getitem inst "InstanceId" = inr id ->
    client (trace s) (Call "describe_instances" (instance_ids id)) = inr reply ->
    (getitem reply "Reservations" = inr (JList []) ->
     display client indent s
     = (inl IndexError,
        mk_st (instance s) (trace s ++ [Call "describe_instances" (instance_ids id)])%list
          (stdout s) (logs s))) /\
    (forall rec v_id v_image v_type v_key v_vpc,
     first_reserved_instance reply rec ->
     getitem rec "InstanceId" = inr v_id ->
     getitem rec "ImageId" = inr v_image ->
     getitem rec "InstanceType" = inr v_type ->
     getitem rec "KeyName" = inr v_key ->
     getitem rec "VpcId" = inr v_vpc ->
     getitem rec "PublicIpAddress" = inl (KeyError (JStr "PublicIpAddress")) ->
     display client indent s
     = (inl (KeyError (JStr "PublicIpAddress")),
        mk_st (instance s)
          (trace s ++ [Call "describe_instances" (instance_ids id)])%list
          (app (stdout s)
           [str_mul tab indent ++ "ID: " ++ py_str v_id;
            str_mul tab indent ++ "Image ID: " ++ py_str v_image;
            str_mul tab indent ++ "Instance type: " ++ py_str v_type;
            str_mul tab indent ++ "Key name: " ++ py_str v_key;
            str_mul tab indent ++ "VPC ID: " ++ py_str v_vpc])
          (logs s))).
Proof.
  intros client indent [i tr out lg] inst id reply Hi Hid Hr. simpl in *. subst i.
  split.
  - intro Hrs. run_display. rewrite Hid, Hr, Hrs. reflexivity.
  - intros rec v_id v_image v_type v_key v_vpc (rs & r0 & is & Hrs & Hr0 & His & Hrec)
      H1 H2 H3 H4 H5 H6.
    run_display.
    rewrite Hid, Hr, Hrs, Hr0, His, Hrec, H1, H2, H3, H4, H5, H6.
    repeat rewrite <- app_assoc. reflexivity.
Qed.

Lemma display_unguarded_lookups_witness :
  display (ok_client "i-0abc" stopped_instance) 2 tracked_st
  = (inl (KeyError (JStr "PublicIpAddress")),
     mk_st (instance tracked_st)
       (trace tracked_st ++ [Call "describe_instances" (instance_ids (JStr "i-0abc"))])%list
       (app (stdout tracked_st)
          [str_mul tab 2 ++ "ID: " ++ py_str (JStr "i-0abc");
           str_mul tab 2 ++ "Image ID: " ++ py_str (JStr "ami-123");
           str_mul tab 2 ++ "Instance type: " ++ py_str (JStr "t2.micro");
           str_mul tab 2 ++ "Key name: " ++ py_str (JStr "demo-key");
           str_mul tab 2 ++ "VPC ID: " ++ py_str (JStr "vpc-1")])
       (logs tracked_st)).
Proof.
  destruct (display_unguarded_lookups (ok_client "i-0abc" stopped_instance) 2 tracked_st
              (instance_record "i-0abc") (JStr "i-0abc") (describe_reply stopped_instance)
              eq_refl eq_refl eq_refl) as [_ H].
  eapply H with (rec := stopped_instance); try reflexivity.
  do 3 eexists. repeat split; reflexivity.
Defined.

Lemma map_m_getitem_ok k items s names s' :
  map_m (fun it => lift (getitem it k)) items s = (inr names, s') ->
  s' = s /\ Forall2 (fun it n => getitem it k = inr n) items names.
Proof.
  revert names s'. induction items as [|it items IH]; intros names s' H.
  - simpl in H. unfold ret in H. inversion H. auto.
  - simpl in H. unfold bind, lift, ret in H.
    destruct (getitem it k) as [e|n] eqn:Hn; [congruence|].
    simpl in H.
    match type of H with
    | context [map_m ?f items ?s0] => destruct (map_m f items s0) as [[e|ns] s1] eqn:Hm
    end; [congruence|].
    inversion H; subst. destruct (IH ns _ Hm) as [Heq Hf]. subst. auto.
Qed.

Lemma filtered_names arch items names :
  Forall2 (fun it n => getitem it "InstanceType" = inr n) items names ->
  Forall (fun it => exists t, getitem it "InstanceType" = inr (JStr t)
                              /\ micro_or_small t = true
                              /\ supports_architecture arch it) items ->
  Forall (fun n => exists t it,
             n = JStr t /\ micro_or_small t = true /\ In it items /\
             getitem it "InstanceType" = inr n /\ supports_architecture arch it) names.
Proof.
  induction 1 as [|it n items names Hn Hf IH]; intro Hall; constructor;
    inversion Hall as [|? ? Hit Hrest]; subst.
  - destruct Hit as (t & Ht & Hms & Harch). rewrite Hn in Ht. inversion Ht; subst.
    exists t, it. repeat split; auto. left; reflexivity.
  - eapply Forall_impl; [|exact (IH Hrest)].
    intros x (t & it' & Hx & Hms & Hin & Hg & Harch).
    exists t, it'. repeat split; auto. right; exact Hin.
Qed.

(** A reply listing one instance type of the [large] size class. *)
Definition large_types_reply : json :=
  JObj [("InstanceTypes", JList [JObj [("InstanceType", JStr "m5.large")]])].

(** C8 (counterexample): [get_instance_types] does not filter the names
    itself; a [large] type in the provider's reply is returned. *)
Lemma instance_types_not_filtered_locally :
  fst (get_instance_types
         (answers "describe_instance_types" (inr large_types_reply)
            (ok_client "i-0abc" described_instance)) "x86_64" empty_st)
  = inr [JStr "m5.large"].
Proof. reflexivity. Qed.

(** C8 (amended): [get_instance_types] sends one [describe_instance_types]
    request whose filters are the architecture filter and the
    ["*.micro"]/["*.small"] name filter, and on a normal return yields the
    [InstanceType] of every record of the reply, in order.  When the
    provider's reply honours these filters, every returned name ends in
    [.micro] or [.small] and names a record that supports the requested
    architecture. *)
Theorem instance_types_contract :
  forall (client : provider) arch (s : st) names s',
    get_instance_types client arch s = (inr names, s') ->
    exists reply its items,
      trace s' = (trace s ++ [Call "describe_instance_types"
                                [("Filters", instance_type_filters arch)]])%list /\
      client (trace s) (Call "describe_instance_types"
                          [("Filters", instance_type_filters arch)]) = inr reply /\
      getitem reply "InstanceTypes" = inr its /\
      py_iter its = inr items /\
      Forall2 (fun it n => getitem it "InstanceType" = inr n) items names /\
      (honours_filters arch reply ->
       Forall (fun n => exists t it,
                  n = JStr t /\ micro_or_small t = true /\ In it items /\
                  getitem it "InstanceType" = inr n /\ supports_architecture arch it)
              names).
Proof.
  intros client arch [i tr out lg] names s' H.
  revert H.
  cbv beta iota zeta delta [get_instance_types try_client log_and_reraise send log lift
    raise bind ret instance trace stdout logs fst snd].
  destruct (client tr _) as [e|reply] eqn:Hr;
    [destruct e; intro H; inversion H|].
  destruct (getitem reply "InstanceTypes") as [e|its] eqn:Hits;
    [destruct e; intro H; inversion H|].
  destruct (py_iter its) as [e|items] eqn:Hitems;
    [destruct e; intro H; inversion H|].
  match goal with
  | |- context [map_m ?f items ?s0] => destruct (map_m f items s0) as [[e|ns] s1] eqn:Hm
  end; [destruct e; intro H; inversion H|].
  intro H. inversion H; subst ns s1; clear H.
  destruct (map_m_getitem_ok _ _ _ _ _ Hm) as [-> Hf].
  exists reply, its, items. repeat split; auto.
  intro Hhon. apply filtered_names; [exact Hf|]. exact (Hhon its items Hits Hitems).
Qed.

Lemma instance_types_contract_witness :
  get_instance_types (ok_client "i-0abc" described_instance) "x86_64" empty_st
  = (inr [JStr "t3.micro"],
     snd (get_instance_types (ok_client "i-0abc" described_instance) "x86_64" empty_st)) /\
  exists reply its items,
    getitem reply "InstanceTypes" = inr its /\ py_iter its = inr items /\
    Forall2 (fun it n => getitem it "InstanceType" = inr n) items [JStr "t3.micro"].
Proof.
  split; [reflexivity|].
  destruct (instance_types_contract (ok_client "i-0abc" described_instance) "x86_64"
              empty_st [JStr "t3.micro"]
              (snd (get_instance_types (ok_client "i-0abc" described_instance) "x86_64"
                      empty_st)) eq_refl)
    as (reply & its & items & _ & _ & H1 & H2 & H3 & _).
  exists reply, its, items. split; [exact H1|]. split; [exact H2|exact H3].
Defined.

(** EC2's answer to [describe_images] without image ids: every image
    available to the account. *)
Definition all_images_reply : json :=
  JObj [("Images", JList [JObj [("ImageId", JStr "ami-123")]])].

(** C9 (counterexample): [get_images []] has no special case for the empty
    list; it returns whatever the provider lists, here one image. *)
Lemma get_images_empty_ids_not_empty :
  fst (get_images (answers "describe_images" (inr all_images_reply)
                     (ok_client "i-0abc" described_instance)) [] empty_st)
  = inr (JList [JObj [("ImageId", JStr "ami-123")]]).
Proof. reflexivity. Qed.

(** C9 (amended): [get_images ids] sends [describe_images] with exactly
    [ids] and, when the provider answers, returns (or fails with) the
    reply's [Images] lookup, for [ids = []] as for any other list; and
    [get_instance_types] returns the empty list, without raising, whenever
    the provider answers with an empty [InstanceTypes] list. *)
Theorem empty_queries :
  forall (client : provider) (s : st),
    (forall ids reply,
       client (trace s) (Call "describe_images" [("ImageIds", JList (map JStr ids))])
         = inr reply ->
       get_images client ids s
       = (getitem reply "Images",
          mk_st (instance s)
            (trace s ++ [Call "describe_images" [("ImageIds", JList (map JStr ids))]])%list
            (stdout s) (logs s))) /\
    (forall arch reply,
       client (trace s) (Call "describe_instance_types"
                           [("Filters", instance_type_filters arch)]) = inr reply ->
       getitem reply "InstanceTypes" = inr (JList []) ->
       fst (get_instance_types client arch s) = inr []).
Proof.
  intros client [i tr out lg]. simpl. split.
  - intros ids reply Hr.
    cbv beta iota zeta delta [get_images try_client log_and_reraise send log lift
      raise bind ret instance trace stdout logs fst snd].
    rewrite Hr.
    destruct (getitem reply "Images") as [e|v] eqn:Hg; [|reflexivity].
    destruct e; try reflexivity.
    apply getitem_not_client in Hg. discriminate.
  - intros arch reply Hr Hits.
    cbv beta iota zeta delta [get_instance_types try_client log_and_reraise send log lift
      raise bind ret instance trace stdout logs fst snd].
    rewrite Hr, Hits. reflexivity.
Qed.

Lemma empty_queries_witness :
  get_images (answers "describe_images" (inr (JObj [("Images", JList [])]))
                (ok_client "i-0abc" described_instance)) [] empty_st
  = (inr (JList []),
     mk_st None [Call "describe_images" [("ImageIds", JList [])]] [] []) /\
  fst (get_instance_types
         (answers "describe_instance_types" (inr (JObj [("InstanceTypes", JList [])]))
            (ok_client "i-0abc" described_instance)) "sparc" empty_st) = inr [].
Proof.
  destruct (empty_queries
              (answers "describe_images" (inr (JObj [("Images", JList [])]))
                 (ok_client "i-0abc" described_instance)) empty_st) as [H1 _].
  destruct (empty_queries
              (answers "describe_instance_types" (inr (JObj [("InstanceTypes", JList [])]))
                 (ok_client "i-0abc" described_instance)) empty_st) as [_ H2].
  split.
  - apply (H1 [] (JObj [("Images", JList [])])). reflexivity.
  - apply (H2 "sparc" (JObj [("InstanceTypes", JList [])])); reflexivity.
Defined.

(** ** Further properties of the wrapper *)

Lemma getindex_not_client v i e : getindex v i = inl e -> is_client_error e = false.
Proof.
  destruct v; simpl; try (intro H; inversion H; reflexivity).
  - destruct (String.get i s); intro H; inversion H; reflexivity.
  - destruct (nth_error l i); intro H; inversion H; reflexivity.
Qed.

Lemma py_iter_not_client v e : py_iter v = inl e -> is_client_error e = false.
Proof. destruct v; simpl; intro H; inversion H; reflexivity. Qed.

Lemma map_m_lift_getitem k items s r s' :
  map_m (fun it => lift (getitem it k)) items s = (r, s') ->
  s' = s /\ forall e, r = inl e -> is_client_error e = false.
Proof.
  revert r s'. induction items as [|it items IH]; intros r s' H.
  - simpl in H. unfold ret in H. inversion H; subst. split; [reflexivity|].
    intros e He; discriminate.
  - simpl in H. unfold bind, lift, ret in H.
    destruct (getitem it k) as [e|n] eqn:Hn.
    + inversion H; subst. split; [reflexivity|].
      intros e' He'. inversion He'; subst. exact (getitem_not_client _ _ _ Hn).
    + simpl in H.
      match type of H with
      | context [map_m ?f items ?s0] => destruct (map_m f items s0) as [r1 s1] eqn:Hm
      end.
      destruct (IH _ _ Hm) as [-> Herr].
      destruct r1 as [e|ns]; inversion H; subst; split; auto;
        intros e' He'; inversion He'; subst; apply Herr; reflexivity.
Qed.

(** Records, after a case split over a method's body, that the exceptions
    raised by Python's own lookups are not [ClientError]s. *)
Ltac python_errors :=
  repeat match goal with
         | H : getitem _ _ = inl _ |- _ =>
             apply getitem_not_client in H
         | H : getindex _ _ = inl _ |- _ =>
             apply getindex_not_client in H
         | H : py_iter _ = inl _ |- _ =>
             apply py_iter_not_client in H
         | H : map_m _ _ _ = (_, _) |- _ =>
             let Hs := fresh "Hs" in let He := fresh "He" in
             destruct (map_m_lift_getitem _ _ _ _ _ H) as [Hs He]; clear H;
             try (specialize (He _ eq_refl))
         end;
  simpl in *; try discriminate; subst;
  repeat match goal with
         | H : is_client_error ?e = false |- context [is_client_error ?e] => rewrite H
         end.

Ltac unfold_methods :=
  unfold create, display, terminate, start, stop, start_or_stop, get_images,
    get_instance_types, print_field, try_client, log_and_reraise, self_instance_sub,
    send, set_instance, get_instance, print, log, lift, raise, bind, ret.

(** Runs a method's body on every path and hands each outcome to [finish]. *)
Ltac run_method finish :=
  let Hrun := fresh "Hrun" in
  intros * Hrun; revert Hrun; unfold_methods; simpl;
  split_matches; python_errors; intro Hrun; inversion Hrun; subst; clear Hrun;
  finish.

Ltac solve_logged :=
  run_method ltac:(unfold logged_iff_client_error; python_errors;
                   repeat split; intros; try discriminate; eauto).

(** Every method of the wrapper logs the exceptions it raises in the same
    way: a [ClientError] leaves with exactly one more ERROR record in the
    log, and any other exception (a waiter error, a failed lookup of the
    reply) leaves the log as it was. *)
Theorem failures_logged_iff_client_error :
  forall (client : provider) (s : st),
    (forall img ty kp sg e s', create client img ty kp sg s = (inl e, s') ->
       logged_iff_client_error e s s') /\
    (forall indent e s', display client indent s = (inl e, s') ->
       logged_iff_client_error e s s') /\
    (forall e s', terminate client s = (inl e, s') -> logged_iff_client_error e s s') /\
    (forall e s', start client s = (inl e, s') -> logged_iff_client_error e s s') /\
    (forall e s', stop client s = (inl e, s') -> logged_iff_client_error e s s') /\
    (forall ids e s', get_images client ids s = (inl e, s') ->
       logged_iff_client_error e s s') /\
    (forall arch e s', get_instance_types client arch s = (inl e, s') ->
       logged_iff_client_error e s s').
Proof.
  intros client [i tr out lg].
  do 6 (split; [solve_logged|]). solve_logged.
Qed.

Lemma failures_logged_iff_client_error_witness :
  fst (create running_wait_fails "ami-123" "t2.micro" "demo-key" None empty_st)
    = inl (ClientError "RequestLimitExceeded" "Request limit exceeded.") /\
  logged_iff_client_error (ClientError "RequestLimitExceeded" "Request limit exceeded.")
    empty_st (snd (create running_wait_fails "ami-123" "t2.micro" "demo-key" None empty_st)).
Proof.
  split; [reflexivity|].
  destruct (failures_logged_iff_client_error running_wait_fails empty_st) as [H _].
  apply (H "ami-123" "t2.micro" "demo-key" None). reflexivity.
Defined.

(** [s'] extends the requests of [s] by at most [n] new ones. *)
Definition appends_requests (n : nat) (s s' : st) : Prop :=
  exists new, trace s' = (trace s ++ new)%list /\ (length new <= n)%nat.

Ltac solve_appends :=
  run_method ltac:(unfold appends_requests; simpl;
    first [ exists []; rewrite app_nil_r; split; [reflexivity | simpl; lia]
          | eexists; split; [repeat rewrite <- app_assoc; reflexivity | simpl; lia] ]).

Ltac solve_stdout := run_method ltac:(reflexivity).

(** No method takes back or reorders a request: every call, whatever its
    outcome, only appends to the requests already sent, and appends at
    most two (one API call and one waiter). *)
Theorem requests_only_appended :
  forall (client : provider) (s : st),
    (forall img ty kp sg r s', create client img ty kp sg s = (r, s') ->
       appends_requests 2 s s') /\
    (forall indent r s', display client indent s = (r, s') -> appends_requests 1 s s') /\
    (forall r s', terminate client s = (r, s') -> appends_requests 2 s s') /\
    (forall r s', start client s = (r, s') -> appends_requests 2 s s') /\
    (forall r s', stop client s = (r, s') -> appends_requests 2 s s') /\
    (forall ids r s', get_images client ids s = (r, s') -> appends_requests 1 s s') /\
    (forall arch r s', get_instance_types client arch s = (r, s') ->
       appends_requests 1 s s').
Proof.
  intros client [i tr out lg].
  do 6 (split; [solve_appends|]). solve_appends.
Qed.

(** Only [display] writes to stdout: every other method leaves the printed
    output as it was, whatever its outcome. *)
Theorem only_display_prints :
  forall (client : provider) (s : st),
    (forall img ty kp sg r s', create client img ty kp sg s = (r, s') ->
       stdout s' = stdout s) /\
    (forall r s', terminate client s = (r, s') -> stdout s' = stdout s) /\
    (forall r s', start client s = (r, s') -> stdout s' = stdout s) /\
    (forall r s', stop client s = (r, s') -> stdout s' = stdout s) /\
    (forall ids r s', get_images client ids s = (r, s') -> stdout s' = stdout s) /\
    (forall arch r s', get_instance_types client arch s = (r, s') ->
       stdout s' = stdout s).
Proof.
  intros client [i tr out lg].
  do 5 (split; [solve_stdout|]). solve_stdout.
Qed.

Lemma requests_only_appended_witness :
  create (ok_client "i-0abc" described_instance) "ami-123" "t2.micro" "demo-key" None empty_st
  = (inr (JStr "i-0abc"),
     snd (create (ok_client "i-0abc" described_instance) "ami-123" "t2.micro" "demo-key"
            None empty_st)) /\
  appends_requests 2 empty_st
    (snd (create (ok_client "i-0abc" described_instance) "ami-123" "t2.micro" "demo-key"
            None empty_st)).
Proof.
  split; [reflexivity|].
  destruct (requests_only_appended (ok_client "i-0abc" described_instance) empty_st)
    as [H _].
  eapply H. reflexivity.
Defined.

Lemma only_display_prints_witness :
  stdout (snd (start (ok_client "i-0abc" described_instance) tracked_st)) = stdout tracked_st.
Proof.
  destruct (only_display_prints (ok_client "i-0abc" described_instance) tracked_st)
    as (_ & _ & H & _).
  eapply H. reflexivity.
Defined.

(** A [run_instances] reply with an empty [Instances] list: [create] raises
    [IndexError] after the one request, sends no waiter, leaves
    [self.instance] as it was and logs nothing. *)
Theorem create_empty_instances :
  forall (client : provider) img ty kp sg (s : st) reply,
    client (trace s) (Call "run_instances" (run_kwargs img ty kp sg)) = inr reply ->
    getitem reply "Instances" = inr (JList []) ->
    create client img ty kp sg s
    = (inl IndexError,
       mk_st (instance s) (trace s ++ [Call "run_instances" (run_kwargs img ty kp sg)])%list
         (stdout s) (logs s)).
Proof.
  intros client img ty kp sg [i tr out lg] reply Hr Hi. simpl in *.
  unfold create, try_client, send, lift, bind. simpl. rewrite Hr. simpl. rewrite Hi.
  reflexivity.
Qed.

Lemma create_empty_instances_witness :
  create (answers "run_instances" (inr (JObj [("Instances", JList [])]))
            (ok_client "i-0abc" described_instance)) "ami-123" "t2.micro" "demo-key" None
    empty_st
  = (inl IndexError,
     mk_st (instance empty_st)
       (trace empty_st ++ [Call "run_instances" (run_kwargs "ami-123" "t2.micro" "demo-key" None)])%list
       (stdout empty_st) (logs empty_st)).
Proof.
  apply (create_empty_instances _ _ _ _ _ _ (JObj [("Instances", JList [])]));
    reflexivity.
Defined.

(** A [run_instances] reply whose first instance record has no
    [InstanceId]: [self.instance] is assigned that record before the id is
    read, so [create] raises [KeyError] with the id-less record tracked,
    after the one request, without waiting and without a log record. *)
Theorem create_record_without_id :
  forall (client : provider) img ty kp sg (s : st) reply insts inst,
    client (trace s) (Call "run_instances" (run_kwargs img ty kp sg)) = inr reply ->
    getitem reply "Instances" = inr insts ->
    getindex insts 0 = inr inst ->
    getitem inst "InstanceId" = inl (KeyError (JStr "InstanceId")) ->
    create client img ty kp sg s
    = (inl (KeyError (JStr "InstanceId")),
       mk_st (Some inst)
         (trace s ++ [Call "run_instances" (run_kwargs img ty kp sg)])%list
         (stdout s) (logs s)).
Proof.
  intros client img ty kp sg [i tr out lg] reply insts inst Hr Hi H0 Hid. simpl in *.
  unfold create, try_client, send, lift, bind, set_instance, self_instance_sub,
    get_instance. simpl. rewrite Hr. simpl. rewrite Hi. simpl. rewrite H0. simpl.
  rewrite Hid. reflexivity.
Qed.

Lemma create_record_without_id_witness :
  create (answers "run_instances"
            (inr (JObj [("Instances", JList [JObj [("ImageId", JStr "ami-123")]])]))
            (ok_client "i-0abc" described_instance)) "ami-123" "t2.micro" "demo-key" None
    empty_st
  = (inl (KeyError (JStr "InstanceId")),
     mk_st (Some (JObj [("ImageId", JStr "ami-123")]))
       (trace empty_st ++ [Call "run_instances" (run_kwargs "ami-123" "t2.micro" "demo-key" None)])%list
       (stdout empty_st) (logs empty_st)).
Proof.
  eapply create_record_without_id; reflexivity.
Defined.

(** A tracked record without a usable [InstanceId] (as [create] can leave
    behind): [terminate], [start], [stop] and [display] raise the lookup's
    error before sending any request, and change nothing, not even the
    log. *)
Theorem tracked_record_without_id :
  forall (client : provider) (s : st) inst e indent,
    instance s = Some inst ->
    getitem inst "InstanceId" = inl e ->
    terminate client s = (inl e, s) /\
    start client s = (inl e, s) /\
    stop client s = (inl e, s) /\
    display client indent s = (inl e, s).
Proof.
  intros client [i tr out lg] inst e indent Hi Hid. simpl in Hi. subst i.
  pose proof (getitem_not_client _ _ _ Hid) as Hnc.
  unfold terminate, start, stop, start_or_stop, display, try_client, self_instance_sub,
    get_instance, lift, bind. simpl. rewrite Hid.
  destruct e; try discriminate; repeat split; reflexivity.
Qed.

Lemma tracked_record_without_id_witness :
  terminate (ok_client "i-0abc" described_instance)
    (mk_st (Some (JObj [("ImageId", JStr "ami-123")])) [] [] [])
  = (inl (KeyError (JStr "InstanceId")),
     mk_st (Some (JObj [("ImageId", JStr "ami-123")])) [] [] []).
Proof.
  apply (tracked_record_without_id (ok_client "i-0abc" described_instance)
           (mk_st (Some (JObj [("ImageId", JStr "ami-123")])) [] [] [])
           (JObj [("ImageId", JStr "ami-123")]) (KeyError (JStr "InstanceId")) 1);
    reflexivity.
Defined.

(** Once [terminate] has returned normally, calling it again sends no
    request and returns normally, only adding its INFO record. *)
Theorem terminate_twice :
  forall (client : provider) (s s1 : st),
    terminate client s = (inr tt, s1) ->
    terminate client s1
    = (inr tt, with_log s1 (mk_log ModuleLogger INFO "No instance to terminate." [])).
Proof.
  intros client s s1 H.
  destruct (terminate_cases client s) as [[_ Hnone]|(e & He & _)];
    rewrite H in *; simpl in *; [|discriminate].
  destruct s1 as [i tr out lg]. simpl in Hnone. subst i. reflexivity.
Qed.

Lemma terminate_twice_witness :
  terminate (ok_client "i-0abc" described_instance)
    (snd (terminate (ok_client "i-0abc" described_instance) tracked_st))
  = (inr tt, with_log (snd (terminate (ok_client "i-0abc" described_instance) tracked_st))
               (mk_log ModuleLogger INFO "No instance to terminate." [])).
Proof.
  apply (terminate_twice _ tracked_st). reflexivity.
Defined.

Lemma create_ok_tracks client img ty kp sg s id s1 :
  create client img ty kp sg s = (inr id, s1) ->
  exists inst, instance s1 = Some inst /\ getitem inst "InstanceId" = inr id.
Proof.
  destruct s as [i tr out lg].
  unfold create, try_client, log_and_reraise, self_instance_sub, send, set_instance,
    get_instance, log, lift, raise, bind, ret; simpl.
  split_matches; simpl in *; intro H; inversion H; subst; clear H.
  eexists. split; [reflexivity | eassumption].
Qed.

(** [terminate] after a successful [create] acts on the instance [create]
    returned: it first sends [terminate_instances] for that id, and when it
    returns normally it has sent exactly that request and the
    [instance_terminated] waiter for the same id. *)
Theorem create_then_terminate :
  forall (client : provider) img ty kp sg (s s1 s2 : st) id r,
    create client img ty kp sg s = (inr id, s1) ->
    terminate client s1 = (r, s2) ->
    nth_error (trace s2) (length (trace s1))
      = Some (Call "terminate_instances" (instance_ids id)) /\
    (r = inr tt ->
     trace s2 = (trace s1 ++ [Call "terminate_instances" (instance_ids id);
                              Wait "instance_terminated" (instance_ids id)])%list).
Proof.
  intros client img ty kp sg s s1 s2 id r Hc Ht.
  destruct (create_ok_tracks _ _ _ _ _ _ _ _ Hc) as (inst & Hi & Hid).
  clear Hc. destruct s1 as [i tr out lg]. simpl in *. subst i.
  revert Ht.
  unfold terminate, try_client, log_and_reraise, self_instance_sub, send, set_instance,
    get_instance, log, lift, raise, bind, ret; simpl. rewrite Hid. simpl.
  destruct (client tr _) as [[c m| | | |]|a] eqn:H1; simpl;
    try (intro Ht; inversion Ht; subst; simpl;
         rewrite nth_error_app2, Nat.sub_diag by lia; split;
         [reflexivity | intro Hr; discriminate]).
  destruct (client (tr ++ _)%list _) as [[c m| | | |]|a'] eqn:H2; simpl;
    intro Ht; inversion Ht; subst; simpl;
    rewrite <- app_assoc, nth_error_app2, Nat.sub_diag by lia;
    (split; [reflexivity | intro Hr; try discriminate; reflexivity]).
Qed.

Lemma create_then_terminate_witness :
  nth_error
    (trace (snd (terminate (ok_client "i-0abc" described_instance)
                   (snd (create (ok_client "i-0abc" described_instance) "ami-123"
                           "t2.micro" "demo-key" None empty_st)))))
    (length (trace (snd (create (ok_client "i-0abc" described_instance) "ami-123"
                           "t2.micro" "demo-key" None empty_st))))
  = Some (Call "terminate_instances" (instance_ids (JStr "i-0abc"))).
Proof.
  eapply (create_then_terminate (ok_client "i-0abc" described_instance) "ami-123" "t2.micro"
            "demo-key" None empty_st); reflexivity.
Defined.

Lemma map_m_getitem_first_error k pre it post e s :
  Forall (fun x => exists n, getitem x k = inr n) pre ->
  getitem it k = inl e ->
  map_m (fun x => lift (getitem x k)) (pre ++ it :: post) s = (inl e, s).
Proof.
  intros Hpre Hit. induction Hpre as [|x pre (n & Hx) Hpre IH]; simpl.
  - unfold bind, lift. rewrite Hit. reflexivity.
  - unfold bind at 1, lift at 1. rewrite Hx. unfold bind in *. rewrite IH. reflexivity.
Qed.

(** [get_instance_types] is all or nothing: when a record of the reply has
    no usable [InstanceType] (and the records before it have one), the call
    raises that lookup's error instead of returning the names read so far. *)
Theorem instance_types_first_bad_record :
  forall (client : provider) arch (s : st) reply pre it post e,
    client (trace s) (Call "describe_instance_types"
                        [("Filters", instance_type_filters arch)]) = inr reply ->
    getitem reply "InstanceTypes" = inr (JList (pre ++ it :: post)) ->
    Forall (fun x => exists n, getitem x "InstanceType" = inr n) pre ->
    getitem it "InstanceType" = inl e ->
    fst (get_instance_types client arch s) = inl e.
Proof.
  intros client arch [i tr out lg] reply pre it post e Hr Hits Hpre Hit. simpl in *.
  pose proof (getitem_not_client _ _ _ Hit) as Hnc.
  unfold get_instance_types, try_client, send. unfold bind at 1. simpl. rewrite Hr.
  unfold bind at 1, lift at 1. rewrite Hits. simpl.
  unfold bind at 1, lift at 1. cbv beta iota.
  rewrite (map_m_getitem_first_error _ _ _ _ _ _ Hpre Hit).
  destruct e; try discriminate; reflexivity.
Qed.

Lemma instance_types_first_bad_record_witness :
  fst (get_instance_types
         (answers "describe_instance_types"
            (inr (JObj [("InstanceTypes",
                         JList [JObj [("InstanceType", JStr "t3.micro")];
                                JObj [("VCpuInfo", JObj [])]])]))
            (ok_client "i-0abc" described_instance)) "x86_64" empty_st)
  = inl (KeyError (JStr "InstanceType")).
Proof.
  apply (instance_types_first_bad_record _ _ _
           (JObj [("InstanceTypes",
                   JList [JObj [("InstanceType", JStr "t3.micro")];
                          JObj [("VCpuInfo", JObj [])]])])
           [JObj [("InstanceType", JStr "t3.micro")]] (JObj [("VCpuInfo", JObj [])]) []);
    try reflexivity.
  constructor; [eexists; reflexivity | constructor].
Defined.

(** The log record a provider [ClientError] leaves, whether the API call
    or the waiter after it raised it: [create] logs the image, instance
    type, key name, error code and message on the root logger; [terminate]
    logs the instance id, code and message on the root logger; [start] logs
    the instance id, code and message on the module's logger.  The error is
    then re-raised unchanged. *)
Theorem client_error_log_records :
  forall (client : provider) (s : st) c m,
    (forall img ty kp sg,
       client (trace s) (Call "run_instances" (run_kwargs img ty kp sg))
         = inl (ClientError c m) ->
       create client img ty kp sg s
       = (inl (ClientError c m),
          mk_st (instance s)
            (trace s ++ [Call "run_instances" (run_kwargs img ty kp sg)])%list (stdout s)
            (logs s ++ [mk_log RootLogger ERROR
              "Couldn't create instance with image %s, instance type %s, and key %s. Here's why: %s: %s"
              [JStr img; JStr ty; JStr kp; JStr c; JStr m]])%list)) /\
    (forall inst id,
       instance s = Some inst -> getitem inst "InstanceId" = inr id ->
       client (trace s) (Call "terminate_instances" (instance_ids id))
         = inl (ClientError c m) ->
       terminate client s
       = (inl (ClientError c m),
          mk_st (instance s)
            (trace s ++ [Call "terminate_instances" (instance_ids id)])%list (stdout s)
            (logs s ++ [mk_log RootLogger ERROR
              "Couldn't terminate instance %s. Here's why: %s: %s"
              [id; JStr c; JStr m]])%list)) /\
    (forall inst id,
       instance s = Some inst -> getitem inst "InstanceId" = inr id ->
       client (trace s) (Call "start_instances" (instance_ids id))
         = inl (ClientError c m) ->
       start client s
       = (inl (ClientError c m),
          mk_st (instance s)
            (trace s ++ [Call "start_instances" (instance_ids id)])%list (stdout s)
            (logs s ++ [mk_log ModuleLogger ERROR
              "Couldn't start instance %s. Here's why: %s: %s"
              [id; JStr c; JStr m]])%list)) /\
    (forall img ty kp sg reply insts inst id,
       client (trace s) (Call "run_instances" (run_kwargs img ty kp sg)) = inr reply ->
       getitem reply "Instances" = inr insts ->
       getindex insts 0 = inr inst ->
       getitem inst "InstanceId" = inr id ->
       client (trace s ++ [Call "run_instances" (run_kwargs img ty kp sg)])%list
         (Wait "instance_running" (instance_ids id)) = inl (ClientError c m) ->
       create client img ty kp sg s
       = (inl (ClientError c m),
          mk_st (Some inst)
            (trace s ++ [Call "run_instances" (run_kwargs img ty kp sg);
                         Wait "instance_running" (instance_ids id)])%list (stdout s)
            (logs s ++ [mk_log RootLogger ERROR
              "Couldn't create instance with image %s, instance type %s, and key %s. Here's why: %s: %s"
              [JStr img; JStr ty; JStr kp; JStr c; JStr m]])%list)) /\
    (forall inst id r,
       instance s = Some inst -> getitem inst "InstanceId" = inr id ->
       client (trace s) (Call "terminate_instances" (instance_ids id)) = inr r ->
       client (trace s ++ [Call "terminate_instances" (instance_ids id)])%list
         (Wait "instance_terminated" (instance_ids id)) = inl (ClientError c m) ->
       terminate client s
       = (inl (ClientError c m),
          mk_st (instance s)
            (trace s ++ [Call "terminate_instances" (instance_ids id);
                         Wait "instance_terminated" (instance_ids id)])%list (stdout s)
            (logs s ++ [mk_log RootLogger ERROR
              "Couldn't terminate instance %s. Here's why: %s: %s"
              [id; JStr c; JStr m]])%list)) /\
    (forall inst id r,
       instance s = Some inst -> getitem inst "InstanceId" = inr id ->
       client (trace s) (Call "start_instances" (instance_ids id)) = inr r ->
       client (trace s ++ [Call "start_instances" (instance_ids id)])%list
         (Wait "instance_running" (instance_ids id)) = inl (ClientError c m) ->
       start client s
       = (inl (ClientError c m),
          mk_st (instance s)
            (trace s ++ [Call "start_instances" (instance_ids id);
                         Wait "instance_running" (instance_ids id)])%list (stdout s)
            (logs s ++ [mk_log ModuleLogger ERROR
              "Couldn't start instance %s. Here's why: %s: %s"
              [id; JStr c; JStr m]])%list)).
Proof.
  intros client [i tr out lg] c m. simpl.
  split; [|split; [|split; [|split; [|split]]]].
  - intros img ty kp sg Hr.
    cbv beta iota zeta delta [create try_client log_and_reraise send log raise bind
      instance trace stdout logs fst snd].
    rewrite Hr. reflexivity.
  - intros inst id Hi Hid Hr. subst i.
    cbv beta iota zeta delta [terminate try_client log_and_reraise self_instance_sub send
      get_instance log lift raise bind instance trace stdout logs fst snd].
    rewrite Hid, Hr. reflexivity.
  - intros inst id Hi Hid Hr. subst i.
    cbv beta iota zeta delta [start start_or_stop try_client log_and_reraise
      self_instance_sub send get_instance log lift raise bind instance trace stdout logs
      fst snd].
    rewrite Hid, Hr. cbv beta iota. rewrite Hid. reflexivity.
  - intros img ty kp sg reply insts inst id Hr Hi H0 Hid Hw.
    cbv beta iota zeta delta [create try_client log_and_reraise self_instance_sub send
      set_instance get_instance log lift raise bind instance trace stdout logs fst snd].
    rewrite Hr, Hi, H0, Hid, Hw. rewrite <- app_assoc. reflexivity.
  - intros inst id r Hi Hid Hr Hw. subst i.
    cbv beta iota zeta delta [terminate try_client log_and_reraise self_instance_sub send
      set_instance get_instance log lift raise bind instance trace stdout logs fst snd].
    rewrite Hid, Hr, Hw. rewrite <- app_assoc. reflexivity.
  - intros inst id r Hi Hid Hr Hw. subst i.
    cbv beta iota zeta delta [start start_or_stop try_client log_and_reraise
      self_instance_sub send get_instance log lift raise bind ret instance trace stdout
      logs fst snd].
    rewrite Hid, Hr, Hw. cbv beta iota. rewrite Hid. rewrite <- app_assoc. reflexivity.
Qed.

Lemma client_error_log_records_witness :
  start (answers "start_instances" (inl (ClientError "IncorrectInstanceState" "busy"))
           (ok_client "i-0abc" described_instance)) tracked_st
  = (inl (ClientError "IncorrectInstanceState" "busy"),
     mk_st (instance tracked_st)
       (trace tracked_st ++ [Call "start_instances" (instance_ids (JStr "i-0abc"))])%list
       (stdout tracked_st)
       (logs tracked_st ++ [mk_log ModuleLogger ERROR
          "Couldn't start instance %s. Here's why: %s: %s"
          [JStr "i-0abc"; JStr "IncorrectInstanceState"; JStr "busy"]])%list).
Proof.
  destruct (client_error_log_records
              (answers "start_instances" (inl (ClientError "IncorrectInstanceState" "busy"))
                 (ok_client "i-0abc" described_instance))
              tracked_st "IncorrectInstanceState" "busy") as (_ & _ & H & _).
  apply (H (instance_record "i-0abc")); reflexivity.
Defined.
